(** * Game of Life on WebGPU: the host script, the fragment shader and the
      simulation step

    The development follows the repository's two source files:
    - [Host] embeds [src/index.js]: the start-up script (capability checks,
      buffers, layouts, seeding) and the tick function [updateGrid];
    - [Frag] embeds [src/shaders/frag.wgsl];
    - [Life] and [Vert] model the compute shader and the vertex shader,
      which the script loads from [shaders/compute.wgsl] and
      [shaders/vert.wgsl] and for which only the specification is
      available.

    JavaScript numbers are IEEE-754 doubles.  Integer-valued numbers are kept
    in [Z]; the one place where the script's arithmetic leaves the exactly
    representable range (the unbounded [step++]) is written out in
    [js_increment].  [Math.random] draws are primitive binary64 floats. *)

From Stdlib Require Import ZArith NArith List Lia Bool String Floats.
From stdpp Require Import base list.
Import ListNotations.
Open Scope Z_scope.

(** ** JavaScript numbers restricted to integers *)

Module JS.

(** The largest power of two below which every integer is a double and
    [x + 1] is exact. *)
Definition two53 : Z := 2 ^ 53.

(** [x++] on an integer-valued double in [[-2^53, 2^53]]: the sum is exact
    below [2^53]; at [2^53] the exact sum [2^53 + 1] lies half-way between
    the doubles [2^53] and [2^53 + 2] and rounds to the even one, [2^53]. *)
Definition js_increment (x : Z) : Z :=
  if x <? two53 then x + 1 else x.

(** [a % b] is the remainder that takes the sign of the dividend. *)
Definition js_rem (a b : Z) : Z := Z.rem a b.

(** [Math.ceil(a / b)] for integers [0 <= a < 2^53], [0 < b]. *)
Definition js_ceil_div (a b : Z) : Z := - ((- a) / b).

(** [xs[i]] for an integer-valued index: [None] stands for [undefined]. *)
Definition js_index {A : Type} (xs : list A) (i : Z) : option A :=
  if i <? 0 then None else xs !! Z.to_nat i.

End JS.

(** ** The part of the WebGPU interface the script uses *)

Module WebGPU.

(** [GPUShaderStage] and [GPUBufferUsage] flags, as the WebGPU interface
    fixes them. *)
Definition GPUShaderStage_VERTEX : Z := 1.
Definition GPUShaderStage_FRAGMENT : Z := 2.
Definition GPUShaderStage_COMPUTE : Z := 4.

Definition GPUBufferUsage_COPY_DST : Z := 8.
Definition GPUBufferUsage_VERTEX : Z := 32.
Definition GPUBufferUsage_UNIFORM : Z := 64.
Definition GPUBufferUsage_STORAGE : Z := 128.

(** [GPUBufferBindingType]; a layout entry written [buffer: {}] has the
    default type, ["uniform"]. *)
Inductive buffer_binding_type := Uniform | Storage | ReadOnlyStorage.

Definition writable (t : buffer_binding_type) : bool :=
  match t with Storage => true | _ => false end.

Record layout_entry := {
  le_binding : Z;
  le_visibility : Z;
  le_type : buffer_binding_type
}.

(** The buffers the script creates, named by their labels. *)
Inductive gpu_buffer := CellVertices | GridUniforms | CellStateA | CellStateB.

Definition gpu_buffer_eqb (a b : gpu_buffer) : bool :=
  match a, b with
  | CellVertices, CellVertices | GridUniforms, GridUniforms
  | CellStateA, CellStateA | CellStateB, CellStateB => true
  | _, _ => false
  end.

Record bind_group_entry := {
  be_binding : Z;
  be_resource : option gpu_buffer
}.

Record bind_group := {
  bg_label : string;
  bg_layout : list layout_entry;
  bg_entries : list bind_group_entry
}.

Inductive pipeline := CellPipeline | SimulationPipeline.

(** The shader stages a pipeline runs. *)
Definition pipeline_stages (p : pipeline) : Z :=
  match p with
  | CellPipeline => Z.lor GPUShaderStage_VERTEX GPUShaderStage_FRAGMENT
  | SimulationPipeline => GPUShaderStage_COMPUTE
  end.

(** What a command encoder records.  A pass keeps the arguments of
    [setPipeline], [setBindGroup(0, _)] and of its dispatch or draw call. *)
Inductive pass :=
| ComputePass (p : pipeline) (group0 : option bind_group) (countX countY : Z)
| RenderPass (p : pipeline) (group0 : option bind_group)
             (vertex0 : gpu_buffer) (vertexCount instanceCount : Z).

Definition command_buffer := list pass.

Definition pass_pipeline (c : pass) : pipeline :=
  match c with ComputePass p _ _ _ => p | RenderPass p _ _ _ _ => p end.

Definition pass_group (c : pass) : option bind_group :=
  match c with ComputePass _ g _ _ => g | RenderPass _ g _ _ _ => g end.

Definition is_compute (c : pass) : bool :=
  match c with ComputePass _ _ _ _ => true | _ => false end.

Definition is_render (c : pass) : bool :=
  match c with RenderPass _ _ _ _ _ => true | _ => false end.

(** The resource a bind group binds at a slot. *)
Definition bound_at (g : bind_group) (slot : Z) : option gpu_buffer :=
  match filter (λ e, be_binding e =? slot) (bg_entries g) with
  | e :: _ => be_resource e
  | [] => None
  end.

(** A layout entry is visible to a pipeline when the two share a stage. *)
Definition visible_to (p : pipeline) (e : layout_entry) : bool :=
  negb (Z.land (le_visibility e) (pipeline_stages p) =? 0).

(** The buffers a pass of pipeline [p] can reach through group [g]: those
    bound at a slot whose layout entry is visible to [p] and satisfies
    [sel]. *)
Definition reachable (sel : layout_entry → bool) (p : pipeline)
    (g : bind_group) : list gpu_buffer :=
  omap (λ e, bound_at g (le_binding e))
       (filter (λ e, visible_to p e && sel e) (bg_layout g)).

(** Buffers a pass may write, and buffers it may read, through its group. *)
Definition pass_writes (c : pass) : list gpu_buffer :=
  match pass_group c with
  | Some g => reachable (λ e, writable (le_type e)) (pass_pipeline c) g
  | None => []
  end.

Definition pass_reads (c : pass) : list gpu_buffer :=
  match pass_group c with
  | Some g => reachable (λ _, true) (pass_pipeline c) g
  | None => []
  end.

(** The storage (cell-state) buffers among the readable ones. *)
Definition pass_reads_storage (c : pass) : list gpu_buffer :=
  match pass_group c with
  | Some g =>
      reachable (λ e, match le_type e with Uniform => false | _ => true end)
                (pass_pipeline c) g
  | None => []
  end.

(** GPU memory: the words each buffer holds. *)
Definition memory : Type := gpu_buffer → list Z.

End WebGPU.

(** ** [src/index.js] *)

Module Host.
Import JS WebGPU.

Definition GRID_SIZE : Z := 256.
Definition UPDATE_INTERVAL : Z := 33.
Definition WORKGROUP_SIZE : Z := 8.

(** What the script does to the outside world, in order. *)
Inductive buffer_data := F32Data (xs : list float) | U32Data (xs : list Z).

Inductive event :=
| RequestAdapter
| RequestDevice
| ConfigureContext
| CreateBuffer (b : gpu_buffer) (size usage : Z)
| WriteBuffer (b : option gpu_buffer) (offset : Z) (data : buffer_data)
| CreateBindGroupLayout (entries : list layout_entry)
| CreatePipelineLayout
| CreateShaderModule (label : string)
| CreateRenderPipeline (p : pipeline)
| CreateComputePipeline (p : pipeline)
| CreateBindGroup (g : bind_group)
| SetInterval (ms : Z)
| Submit (buffers : list command_buffer)
| Uncaught (message : string)
| CreateCommandEncoder
| GetCurrentTexture.

(** What the script asks of the browser: whether [navigator.gpu] is there,
    whether [requestAdapter] resolves to an adapter, and the values
    [Math.random] returns, in call order. *)
Record browser := {
  navigator_gpu : bool;
  adapter_found : bool;
  Math_random : nat → float
}.

(** A script appends to the log and either goes on with a value or stops at
    an uncaught [throw]. *)
Definition script (A : Type) : Type := list event → list event * option A.

#[export] Instance script_ret : MRet script := λ A a t, (t, Some a).
#[export] Instance script_bind : MBind script := λ A B k m t,
  match m t with
  | (t', Some a) => k a t'
  | (t', None) => (t', None)
  end.

Definition emit (e : event) : script unit := λ t, (t ++ [e], Some tt).
Definition throw (message : string) : script unit :=
  λ t, (t ++ [Uncaught message], None).
Definition when (b : bool) (m : script unit) : script unit :=
  if b then m else mret tt.

(** The quad: two triangles.  A [Float32Array] holds each literal rounded
    to binary32; [0x1.99999ap-1] is that value for [0.8]. *)
Definition vertices : list float :=
  [ -0x1.99999ap-1; -0x1.99999ap-1; 0x1.99999ap-1; -0x1.99999ap-1;
    0x1.99999ap-1; 0x1.99999ap-1;
    -0x1.99999ap-1; -0x1.99999ap-1; 0x1.99999ap-1; 0x1.99999ap-1;
    -0x1.99999ap-1; 0x1.99999ap-1 ]%float.

Definition byteLength {A : Type} (xs : list A) : Z := 4 * Z.of_nat (length xs).

Definition vertexBuffer : gpu_buffer := CellVertices.
Definition uniformBuffer : gpu_buffer := GridUniforms.

Definition bindGroupLayout : list layout_entry :=
  [ {| le_binding := 0;
       le_visibility := Z.lor GPUShaderStage_VERTEX GPUShaderStage_COMPUTE;
       le_type := Uniform |};
    {| le_binding := 1;
       le_visibility := Z.lor GPUShaderStage_VERTEX GPUShaderStage_COMPUTE;
       le_type := ReadOnlyStorage |};
    {| le_binding := 2;
       le_visibility := GPUShaderStage_COMPUTE;
       le_type := Storage |} ].

Definition uniformArray : list float := [256; 256]%float.

(** [new Uint32Array(n)]: [n] zeros. *)
Definition Uint32Array (n : Z) : list Z := replicate (Z.to_nat n) 0.

Definition cellStateStorage : list gpu_buffer := [CellStateA; CellStateB].

(** The literal [0.6] denotes the double [0x1.3333333333333p-1]. *)
Definition live_threshold : float := 0x1.3333333333333p-1%float.

(** [Math.random() > 0.6 ? 1 : 0] *)
Definition draw_cell (r : float) : Z :=
  if PrimFloat.ltb live_threshold r then 1 else 0.

(** The seeding loop: iteration [i] makes the script's [i]-th call of
    [Math.random] and stores into element [i]. *)
Definition seed (random : nat → float) (cellStateArray : list Z) : list Z :=
  foldl (λ arr i, <[i := draw_cell (random i)]> arr)
        cellStateArray (seq 0 (length cellStateArray)).

Definition bindGroups : list bind_group :=
  [ {| bg_label := "Cell renderer bind group A";
       bg_layout := bindGroupLayout;
       bg_entries :=
         [ {| be_binding := 0; be_resource := Some uniformBuffer |};
           {| be_binding := 1; be_resource := js_index cellStateStorage 0 |};
           {| be_binding := 2; be_resource := js_index cellStateStorage 1 |} ] |};
    {| bg_label := "Cell renderer bind group B";
       bg_layout := bindGroupLayout;
       bg_entries :=
         [ {| be_binding := 0; be_resource := Some uniformBuffer |};
           {| be_binding := 1; be_resource := js_index cellStateStorage 1 |};
           {| be_binding := 2; be_resource := js_index cellStateStorage 0 |} ] |} ].

(** The module body, from the capability checks to [setInterval].  The two
    checks are the failures it tests for; the calls that follow them
    ([requestDevice], [getContext], [configure] and the [create*] calls)
    are taken to return. *)
Definition main (env : browser) : script unit :=
  when (negb (navigator_gpu env))
    (throw "WebGPU not supported on this browser.") ;;
  emit RequestAdapter ;;
  when (negb (adapter_found env))
    (throw "No appropriate GPUAdapter found.") ;;
  emit RequestDevice ;;
  emit ConfigureContext ;;
  emit (CreateBuffer CellVertices (byteLength vertices)
          (Z.lor GPUBufferUsage_VERTEX GPUBufferUsage_COPY_DST)) ;;
  emit (WriteBuffer (Some vertexBuffer) 0 (F32Data vertices)) ;;
  emit (CreateBindGroupLayout bindGroupLayout) ;;
  emit CreatePipelineLayout ;;
  emit (CreateShaderModule "Vertex Shader") ;;
  emit (CreateShaderModule "Fragment Shader") ;;
  emit (CreateRenderPipeline CellPipeline) ;;
  emit (CreateShaderModule "Life simulation shader") ;;
  emit (CreateComputePipeline SimulationPipeline) ;;
  emit (CreateBuffer GridUniforms (byteLength uniformArray)
          (Z.lor GPUBufferUsage_UNIFORM GPUBufferUsage_COPY_DST)) ;;
  emit (WriteBuffer (Some uniformBuffer) 0 (F32Data uniformArray)) ;;
  let cellStateArray := Uint32Array (GRID_SIZE * GRID_SIZE) in
  emit (CreateBuffer CellStateA (byteLength cellStateArray)
          (Z.lor GPUBufferUsage_STORAGE GPUBufferUsage_COPY_DST)) ;;
  emit (CreateBuffer CellStateB (byteLength cellStateArray)
          (Z.lor GPUBufferUsage_STORAGE GPUBufferUsage_COPY_DST)) ;;
  let cellStateArray := seed (Math_random env) cellStateArray in
  emit (WriteBuffer (js_index cellStateStorage 0) 0 (U32Data cellStateArray)) ;;
  foldr (λ g rest, emit (CreateBindGroup g) ;; rest) (mret tt) bindGroups ;;
  emit (SetInterval UPDATE_INTERVAL).

(** The script's state once it runs: the counter [step] and the log. *)
Record host := { step : Z; log : list event }.

(** The passes one call of [updateGrid] encodes from counter value [s],
    and the counter it leaves. *)
Definition encode (s : Z) : command_buffer * Z :=
  let encoder : command_buffer := [] in
  let workgroupCount := js_ceil_div GRID_SIZE WORKGROUP_SIZE in
  let encoder := encoder ++
    [ComputePass SimulationPipeline (js_index bindGroups (js_rem s 2))
       workgroupCount workgroupCount] in
  let s := js_increment s in
  let encoder := encoder ++
    [RenderPass CellPipeline (js_index bindGroups (js_rem s 2))
       vertexBuffer (Z.of_nat (length vertices) / 2) (GRID_SIZE * GRID_SIZE)] in
  (encoder, s).

(** A tick asks the device for a command encoder, the canvas context for
    its current texture (the render pass's attachment), and submits the
    finished encoder. *)
Definition updateGrid (h : host) : host :=
  let '(encoder, s) := encode (step h) in
  {| step := s;
     log := log h ++
            [CreateCommandEncoder; GetCurrentTexture; Submit [encoder]] |}.

(** The state the module body leaves ([let step = 0]), and the state
    before tick [n] of the timer, ticks counted from 0.  The timer runs
    only when the log of [start] holds the [SetInterval]. *)
Definition start (env : browser) : host :=
  {| step := 0; log := (main env []).1 |}.

Definition before_tick (env : browser) (n : N) : host :=
  N.iter n updateGrid (start env).

Definition compute_passes (cb : command_buffer) : list pass :=
  filter (λ c, is_compute c) cb.

(** The (source, destination) cell-state buffers of a pass: what it can
    read through a read-only storage binding and what it can write. *)
Definition pass_sources (c : pass) : list gpu_buffer :=
  match pass_group c with
  | Some g =>
      reachable (λ e, match le_type e with ReadOnlyStorage => true | _ => false end)
                (pass_pipeline c) g
  | None => []
  end.

Definition roles (c : pass) : list gpu_buffer * list gpu_buffer :=
  (pass_sources c, pass_writes c).

End Host.

(** ** Derived notions on the host's log *)

Module Run.
Import JS WebGPU Host.

(** [cellStateStorage[i]], as the list of buffers it denotes. *)
Definition cell_buffer (i : Z) : list gpu_buffer :=
  option_list (js_index cellStateStorage i).

(** What tick [n] hands to [device.queue.submit]: the payload of the event
    the tick appends to the log. *)
Definition submission (env : browser) (n : N) : list command_buffer :=
  match last (log (before_tick env (N.succ n))) with
  | Some (Submit buffers) => buffers
  | _ => []
  end.

(** The passes of tick [n], in encoding order. *)
Definition tick_passes (env : browser) (n : N) : list pass :=
  concat (submission env n).

(** The (source, destination) pair of each compute pass of tick [n]. *)
Definition tick_roles (env : browser) (n : N)
    : list (list gpu_buffer * list gpu_buffer) :=
  map roles (compute_passes (tick_passes env n)).

(** The [(vertexCount, instanceCount)] of every draw call in a command
    buffer. *)
Definition draw_calls (cb : command_buffer) : list (Z * Z) :=
  omap (λ c, match c with
             | RenderPass _ _ _ v i => Some (v, i)
             | _ => None
             end) cb.

(** What running a pass may do to GPU memory: a buffer the pass cannot
    write keeps its contents. *)
Definition pass_effect (c : pass) (m m' : memory) : Prop :=
  ∀ b, b ∉ pass_writes c → m' b = m b.

(** A browser with WebGPU and one without an adapter, for concrete runs. *)
Definition chrome : browser :=
  {| navigator_gpu := true; adapter_found := true;
     Math_random := λ i, if Nat.even i then 0x1.8p-1%float else 0x1p-1%float |}.

Definition no_adapter : browser :=
  {| navigator_gpu := true; adapter_found := false;
     Math_random := λ _, 0%float |}.

(** The host's buffer uploads in a log, in order. *)
Definition buffer_writes (t : list event)
    : list (option gpu_buffer * buffer_data) :=
  omap (λ e, match e with
             | WriteBuffer b _ data => Some (b, data)
             | _ => None
             end) t.

Definition uncaught_errors (t : list event) : list string :=
  omap (λ e, match e with Uncaught m => Some m | _ => None end) t.

(** Events that construct a pipeline, and events that schedule or issue
    ticks. *)
Definition constructs_pipeline (e : event) : bool :=
  match e with
  | CreateRenderPipeline _ | CreateComputePipeline _ => true
  | _ => false
  end.

Definition schedules_tick (e : event) : bool :=
  match e with SetInterval _ | Submit _ => true | _ => false end.

(** Tick [n] reads and writes the buffers the counter's parity selects. *)
Definition ping_pong_at (env : browser) (n : N) : Prop :=
  tick_roles env n =
    [(cell_buffer (Z.of_N n mod 2), cell_buffer ((Z.of_N n + 1) mod 2))].

(** Tick [n] submits one command buffer, compute pass first, and its
    render pass reads the cell-state buffer its compute pass wrote. *)
Definition render_follows_compute (env : browser) (n : N) : Prop :=
  ∃ c r,
    submission env n = [[c; r]] ∧
    is_compute c = true ∧ is_render r = true ∧
    pass_writes c = cell_buffer ((step (before_tick env n) + 1) mod 2) ∧
    pass_reads_storage r = pass_writes c.

(** The command buffer [updateGrid] encodes when it picks bind group [i]
    for the compute pass and bind group [j] for the render pass. *)
Definition frame (i j : Z) : command_buffer :=
  [ ComputePass SimulationPipeline (js_index bindGroups i) 32 32;
    RenderPass CellPipeline (js_index bindGroups j) vertexBuffer 6 65536 ].

(** The cell-state buffer a pass has at slot 1, its "current" state. *)
Definition current_state (c : pass) : option gpu_buffer :=
  g ← pass_group c; bound_at g 1.

End Run.

(** ** [src/shaders/frag.wgsl] *)

Module Frag.

(** [f32] is IEEE-754 binary32: 24 bits of precision, exponents below 128. *)
Definition f32 : Type := spec_float.
Definition f32_sub : f32 → f32 → f32 := SFsub 24 128.

(** The literals [1.0] and [1], both the [f32] one. *)
Definition f32_one : f32 := S754_finite false 8388608 (-23).

Record vec2f := { x : f32; y : f32 }.
Record vec4f := { v0 : f32; v1 : f32; v2 : f32; v3 : f32 }.

(** [vec4f(v, z, w)] for a [vec2f] [v] and two scalars. *)
Definition vec4f_of (v : vec2f) (z w : f32) : vec4f :=
  {| v0 := x v; v1 := y v; v2 := z; v3 := w |}.

Record VertexOutput := { position : vec4f; cell : vec2f }.

Definition fragmentMain (input : VertexOutput) : vec4f :=
  vec4f_of (cell input) (f32_sub f32_one (x (cell input))) f32_one.

(** Some binary32 values for concrete runs: 0.25, 0.5 and 0.75. *)
Definition f32_quarter : f32 := S754_finite false 8388608 (-25).
Definition f32_half : f32 := S754_finite false 8388608 (-24).
Definition f32_three_quarters : f32 := S754_finite false 12582912 (-24).

End Frag.

(** ** The simulation step *)

Module Life.
Import WebGPU.

(** Modelled from the spec: the compute shader (shaders/compute.wgsl) that
    the script loads is not among the sources.  Sections 3 and 4.2 of the
    specification give the data layout (one word per cell at
    [y * width + x]), the neighbourhood (8 neighbours, coordinates wrapped
    modulo width and height), the transition rule, and the dispatch in
    square tiles of edge 8 with a guard for invocations outside the grid.
    Everything in this module follows that text. *)
Record grid := { width : Z; height : Z }.

Definition TILE : Z := 8.

Definition offsets : list (Z * Z) :=
  [ (-1, -1); (0, -1); (1, -1);
    (-1, 0);           (1, 0);
    (-1, 1);  (0, 1);  (1, 1) ].

(** Modelled from the spec: cell states are binary, one word per cell; a
    word is a live cell when it is not zero. *)
Definition live (v : Z) : bool := negb (v =? 0).

Definition b2z (b : bool) : Z := if b then 1 else 0.

(** Modelled from the spec: the cell at [(x, y)] is word [y * width + x]. *)
Definition cell_index (g : grid) (x y : Z) : nat :=
  Z.to_nat (y * width g + x).

Definition read (g : grid) (buf : list Z) (c : Z * Z) : Z :=
  default 0 (buf !! cell_index g c.1 c.2).

(** Modelled from the spec: the 8 neighbours of [(x, y)], each coordinate
    wrapped modulo the width and the height. *)
Definition neighbours (g : grid) (x y : Z) : list (Z * Z) :=
  map (λ d, ((x + d.1) mod width g, (y + d.2) mod height g)) offsets.

Definition sumZ (l : list Z) : Z := foldr Z.add 0 l.

Definition live_neighbours (g : grid) (buf : list Z) (x y : Z) : Z :=
  sumZ (map (λ c, b2z (live (read g buf c))) (neighbours g x y)).

(** Modelled from the spec: a live cell survives with 2 or 3 live
    neighbours, a dead cell becomes live with exactly 3, every other cell
    is dead. *)
Definition transition (alive : bool) (n : Z) : Z :=
  if alive then (if (n =? 2) || (n =? 3) then 1 else 0)
  else (if n =? 3 then 1 else 0).

Definition next_state (g : grid) (src : list Z) (x y : Z) : Z :=
  transition (live (read g src (x, y))) (live_neighbours g src x y).

Definition in_grid (g : grid) (x y : Z) : bool :=
  (0 <=? x) && (x <? width g) && (0 <=? y) && (y <? height g).

Definition store (m : memory) (b : gpu_buffer) (i : nat) (v : Z) : memory :=
  λ b', if gpu_buffer_eqb b' b then <[i := v]> (m b') else m b'.

(** Modelled from the spec: one invocation.  The cell with global id
    [(x, y)] reads the source buffer as memory has it now and writes its
    own word of the destination; an id outside the grid writes nothing. *)
Definition invocation (g : grid) (src dst : gpu_buffer)
    (m : memory) (id : Z * Z) : memory :=
  if in_grid g id.1 id.2
  then store m dst (cell_index g id.1 id.2) (next_state g (m src) id.1 id.2)
  else m.

(** Modelled from the spec: tiles per axis, [ceil (n / TILE)], and the
    global ids of a dispatch. *)
Definition tiles (n : Z) : Z := - ((- n) / TILE).

Definition dispatch_ids (g : grid) : list (Z * Z) :=
  y ← seqZ 0 (TILE * tiles (height g));
  x ← seqZ 0 (TILE * tiles (width g));
  [(x, y)].

(** Modelled from the spec: a simulation step is one dispatch; its
    invocations run in the order the device picks. *)
Definition SimulationStep (g : grid) (src dst : gpu_buffer)
    (order : list (Z * Z)) (m : memory) : memory :=
  foldl (invocation g src dst) m order.

(** What holds of memory [m0] part-way through a step that began in
    memory [m]: only the destination has changed, it has kept its length,
    and the cells in [done] hold their next state, computed from the
    source as it was when the step began. *)
Definition step_invariant (g : grid) (src dst : gpu_buffer) (m : memory)
    (done : list (Z * Z)) (m0 : memory) : Prop :=
  (∀ b, b ≠ dst → m0 b = m b) ∧
  length (m0 dst) = length (m dst) ∧
  ∀ x y, (x, y) ∈ done → in_grid g x y = true →
    m0 dst !! cell_index g x y = Some (next_state g (m src) x y).

(** The next generation as a function of the source words alone. *)
Definition next_grid (g : grid) (src : list Z) : list Z :=
  (λ i, next_state g src (i mod width g) (i / width g)) <$>
    seqZ 0 (width g * height g).

(** Neighbour count and rule on the unbounded plane, for a predicate that
    says which cells are live. *)
Definition plane_count (p : Z → Z → bool) (x y : Z) : Z :=
  sumZ (map (λ d, b2z (p (x + d.1) (y + d.2))) offsets).

Definition plane_next (p : Z → Z → bool) (x y : Z) : Z :=
  transition (p x y) (plane_count p x y).

(** The live cells of [p] keep one dead row and column from every edge. *)
Definition confined (g : grid) (p : Z → Z → bool) : Prop :=
  ∀ x y, p x y = true → 1 ≤ x ≤ width g - 2 ∧ 1 ≤ y ≤ height g - 2.

(** The grid that has a live cell exactly where [p] holds. *)
Definition pattern (g : grid) (p : Z → Z → bool) : list Z :=
  (λ i, b2z (p (i mod width g) (i / width g))) <$>
    seqZ 0 (width g * height g).

(** Three live cells in a row, or in a column, around [(cx, cy)], and the
    2-by-2 block with corner [(cx, cy)]. *)
Definition blinker_row (cx cy x y : Z) : bool :=
  (y =? cy) && (cx - 1 <=? x) && (x <=? cx + 1).
Definition block (cx cy x y : Z) : bool :=
  (cx <=? x) && (x <=? cx + 1) && (cy <=? y) && (y <=? cy + 1).


(** Memory whose buffer [b] holds [cells]. *)
Definition holding (b : gpu_buffer) (cells : list Z) (m : memory) : memory :=
  λ b', if gpu_buffer_eqb b' b then cells else m b'.

(** A 5-by-5 grid and a memory for concrete runs: a row blinker in buffer
    A, stale words in the other buffers. *)
Definition grid5 : grid := {| width := 5; height := 5 |}.

Definition blinker_memory : memory :=
  holding CellStateA (pattern grid5 (blinker_row 2 2)) (λ _, replicate 25 7).






End Life.

(** ** More of [src/index.js]: the vertex layout and what a log shows *)

Module Setup.
Import JS WebGPU Host Run.

(** [GPUVertexFormat]; a ["float32x2"] attribute takes two 4-byte floats. *)
Inductive vertex_format := Float32x2.

Definition format_bytes (f : vertex_format) : Z :=
  match f with Float32x2 => 8 end.

Record vertex_attribute := {
  format : vertex_format;
  offset : Z;
  shaderLocation : Z
}.

Record vertex_buffer_layout := {
  arrayStride : Z;
  attributes : list vertex_attribute
}.

Definition vertexBufferLayout : vertex_buffer_layout :=
  {| arrayStride := 8;
     attributes :=
       [ {| format := Float32x2; offset := 0; shaderLocation := 0 |} ] |}.

(** A usage or visibility word has a flag. *)
Definition has_flag (word flag : Z) : bool := negb (Z.land word flag =? 0).

(** The usage a buffer needs to be bound with a layout entry of type [t]. *)
Definition required_usage (t : buffer_binding_type) : Z :=
  match t with
  | Uniform => GPUBufferUsage_UNIFORM
  | Storage | ReadOnlyStorage => GPUBufferUsage_STORAGE
  end.

Definition data_bytes (d : buffer_data) : Z :=
  match d with F32Data xs => byteLength xs | U32Data xs => byteLength xs end.

(** The log the module body writes when nothing throws, for the draws
    [random]. *)
Definition startup_log (random : nat → float) : list event :=
  [ RequestAdapter; RequestDevice; ConfigureContext;
    CreateBuffer CellVertices (byteLength vertices)
      (Z.lor GPUBufferUsage_VERTEX GPUBufferUsage_COPY_DST);
    WriteBuffer (Some vertexBuffer) 0 (F32Data vertices);
    CreateBindGroupLayout bindGroupLayout;
    CreatePipelineLayout;
    CreateShaderModule "Vertex Shader";
    CreateShaderModule "Fragment Shader";
    CreateRenderPipeline CellPipeline;
    CreateShaderModule "Life simulation shader";
    CreateComputePipeline SimulationPipeline;
    CreateBuffer GridUniforms (byteLength uniformArray)
      (Z.lor GPUBufferUsage_UNIFORM GPUBufferUsage_COPY_DST);
    WriteBuffer (Some uniformBuffer) 0 (F32Data uniformArray);
    CreateBuffer CellStateA (byteLength (Uint32Array (GRID_SIZE * GRID_SIZE)))
      (Z.lor GPUBufferUsage_STORAGE GPUBufferUsage_COPY_DST);
    CreateBuffer CellStateB (byteLength (Uint32Array (GRID_SIZE * GRID_SIZE)))
      (Z.lor GPUBufferUsage_STORAGE GPUBufferUsage_COPY_DST);
    WriteBuffer (js_index cellStateStorage 0) 0
      (U32Data (seed random (Uint32Array (GRID_SIZE * GRID_SIZE)))) ]
  ++ map CreateBindGroup bindGroups
  ++ [ SetInterval UPDATE_INTERVAL ].


(** Event [i] of log [t] creates buffer [b] with this size and usage. *)
Definition creates_at (t : list event) (i : nat) (b : gpu_buffer)
    (size usage : Z) : Prop :=
  t !! i = Some (CreateBuffer b size usage).

(** The binary32 number [k / GRID_SIZE], a cell coordinate scaled to the
    unit square; [GRID_SIZE] is [2^8]. *)
Definition cell_fraction (k : Z) : Frag.f32 :=
  binary_normalize 24 128 k (- Z.log2 GRID_SIZE) false.

(** Two binary32 values are the same datum. *)
Definition same_f32 (a b : Frag.f32) : bool :=
  match a, b with
  | S754_zero s, S754_zero s' => Bool.eqb s s'
  | S754_infinity s, S754_infinity s' => Bool.eqb s s'
  | S754_nan, S754_nan => true
  | S754_finite s m e, S754_finite s' m' e' =>
      Bool.eqb s s' && (m =? m')%positive && (e =? e')
  | _, _ => false
  end.

End Setup.

(** ** The vertex stage *)

Module Vert.
Import Host Frag.

Definition f32_div : f32 → f32 → f32 := SFdiv 24 128.

(** An unsigned integer converted to [f32]. *)
Definition f32_of_Z (k : Z) : f32 := binary_normalize 24 128 k 0 false.

Section VertexStage.

(** What section 4.3 of the specification leaves open: where an instance
    is placed, given the quad vertex, the cell and the cell's state word,
    and how the rasteriser interpolates the outputs of a triangle's three
    vertices at a fragment ([weights] stands for the fragment's position
    in the triangle). *)
Variable place : vec2f → Z → Z → Z → vec4f.
Variable weights : Type.
Variable interpolate :
  weights → VertexOutput → VertexOutput → VertexOutput → VertexOutput.

(** Modelled from the spec: the vertex shader (shaders/vert.wgsl) is not
    among the sources.  Section 4.3 draws one instance per cell, instance
    [y * width + x] for the cell [(x, y)]; the cell's state word gates the
    placement of the instance only, and the instance is coloured by its
    cell coordinate, which the vertex stage hands on normalized by the
    grid dimensions. *)
Definition vertexMain (w h : Z) (pos : vec2f) (instance state : Z)
    : VertexOutput :=
  let cx := instance mod w in
  let cy := instance / w in
  {| position := place pos cx cy state;
     cell := {| x := f32_div (f32_of_Z cx) (f32_of_Z w);
                y := f32_div (f32_of_Z cy) (f32_of_Z h) |} |}.

(** The colour of a fragment of an instance: [fragmentMain] on the
    interpolated outputs of the triangle's three vertices. *)
Definition instance_colour (w h : Z) (at_ : weights) (p1 p2 p3 : vec2f)
    (instance state : Z) : vec4f :=
  fragmentMain
    (interpolate at_ (vertexMain w h p1 instance state)
                     (vertexMain w h p2 instance state)
                     (vertexMain w h p3 instance state)).

End VertexStage.

(** A placement and a rasteriser for concrete runs: dead cells collapse
    to the origin, and a fragment takes the first vertex's outputs. *)
Definition f32_zero : f32 := S754_zero false.

Definition collapse_dead (pos : vec2f) (cx cy state : Z) : vec4f :=
  if state =? 0
  then {| v0 := f32_zero; v1 := f32_zero; v2 := f32_zero; v3 := f32_one |}
  else {| v0 := x pos; v1 := y pos; v2 := f32_zero; v3 := f32_one |}.

Definition first_vertex (_ : unit) (a b c : VertexOutput) : VertexOutput := a.

End Vert.

(** ** Facts about [src/index.js] *)

Module HostFacts.
Import JS WebGPU Host Run.

(** In binary64, adding 1 is exact just below [2^53] and has no effect at
    [2^53]: this is what [js_increment] writes out. *)
Example double_increment_below_two53 :
  PrimFloat.eqb (9007199254740991 + 1) 9007199254740992 = true.
Proof. reflexivity. Qed.

Example double_increment_at_two53 :
  PrimFloat.eqb (9007199254740992 + 1) 9007199254740992 = true.
Proof. reflexivity. Qed.

Example js_increment_at_two53 :
  js_increment (2 ^ 53 - 1) = 2 ^ 53 ∧ js_increment (2 ^ 53) = 2 ^ 53.
Proof. split; reflexivity. Qed.

Example encode_first_ticks :
  map (λ s, map roles (encode s).1) [0; 1; 2] =
    [ [([CellStateA], [CellStateB]); ([CellStateB], [])];
      [([CellStateB], [CellStateA]); ([CellStateA], [])];
      [([CellStateA], [CellStateB]); ([CellStateB], [])] ].
Proof. reflexivity. Qed.

Example seed_five :
  seed (Math_random chrome) (Uint32Array 5) = [1; 0; 1; 0; 1].
Proof. reflexivity. Qed.

Lemma step_updateGrid h : step (updateGrid h) = js_increment (step h).
Proof. reflexivity. Qed.

Lemma log_updateGrid h :
  log (updateGrid h) =
    log h ++
    [CreateCommandEncoder; GetCurrentTexture; Submit [(encode (step h)).1]].
Proof. reflexivity. Qed.

Lemma before_tick_succ env n :
  before_tick env (N.succ n) = updateGrid (before_tick env n).
Proof. unfold before_tick. apply N.iter_succ. Qed.

(** The counter before tick [n] is [n] until it reaches [2^53], and stays
    there. *)
Lemma step_before_tick env n :
  step (before_tick env n) = Z.min (Z.of_N n) two53.
Proof.
  induction n as [|n IH] using N.peano_ind.
  - reflexivity.
  - rewrite before_tick_succ, step_updateGrid, IH.
    unfold js_increment, two53.
    destruct (Z.ltb_spec (Z.min (Z.of_N n) (2 ^ 53)) (2 ^ 53)); lia.
Qed.

Lemma submission_encode env n :
  submission env n = [(encode (Z.min (Z.of_N n) two53)).1].
Proof.
  unfold submission.
  rewrite before_tick_succ, log_updateGrid, step_before_tick.
  change (log ?h ++ [?a; ?b; ?c]) with (log h ++ [a; b] ++ [c]).
  rewrite app_assoc, last_snoc. reflexivity.
Qed.

Lemma tick_passes_encode env n :
  tick_passes env n = (encode (Z.min (Z.of_N n) two53)).1.
Proof.
  unfold tick_passes. rewrite submission_encode. apply app_nil_r.
Qed.

(** Below [2^53] the encoded passes depend on the counter's parity only. *)
Lemma encode_parity s :
  0 ≤ s < two53 →
  encode s = ((encode (s mod 2)).1, s + 1).
Proof.
  intros [Hlo Hhi]. unfold encode, js_rem, js_increment.
  destruct (Z.ltb_spec s two53) as [_|]; [|lia].
  destruct (Z.ltb_spec (s mod 2) two53) as [_|Hbig].
  2: { unfold two53 in Hbig. pose proof (Z.mod_pos_bound s 2). lia. }
  pose proof (Z.mod_pos_bound s 2 ltac:(lia)) as Hm.
  rewrite (Z.rem_mod_nonneg s 2), (Z.rem_mod_nonneg (s + 1) 2),
    (Z.rem_mod_nonneg (s mod 2) 2), (Z.rem_mod_nonneg (s mod 2 + 1) 2)
    by lia.
  rewrite Zmod_mod, Zplus_mod_idemp_l. reflexivity.
Qed.

Lemma parity_cases s : s mod 2 = 0 ∨ s mod 2 = 1.
Proof. pose proof (Z.mod_pos_bound s 2). lia. Qed.

Lemma succ_parity s : (s + 1) mod 2 = 1 - s mod 2.
Proof.
  rewrite Zplus_mod. destruct (parity_cases s) as [->| ->]; reflexivity.
Qed.

(** The compute pass of a tick is chosen by the counter's parity. *)
Lemma compute_roles_parity s :
  0 ≤ s →
  map roles (compute_passes (encode s).1) =
    [(cell_buffer (s mod 2), cell_buffer ((s + 1) mod 2))].
Proof.
  intros Hs. unfold encode, js_rem.
  rewrite (Z.rem_mod_nonneg s 2) by lia.
  rewrite succ_parity.
  destruct (parity_cases s) as [-> | ->]; reflexivity.
Qed.

Lemma min_two53_nonneg n : 0 ≤ Z.min (Z.of_N n) two53.
Proof. unfold two53. lia. Qed.

Lemma tick_roles_parity env n :
  tick_roles env n =
    [(cell_buffer (Z.min (Z.of_N n) two53 mod 2),
      cell_buffer ((Z.min (Z.of_N n) two53 + 1) mod 2))].
Proof.
  unfold tick_roles. rewrite tick_passes_encode.
  apply compute_roles_parity, min_two53_nonneg.
Qed.

(** C1, as stated, fails once the counter has stopped growing: tick
    [2^53 + 1] reads A and writes B although [2^53 + 1] is odd, and it
    repeats the pair of tick [2^53]. *)
Lemma ping_pong_stalls_past_two53 :
  ¬ ping_pong_at chrome (2 ^ 53 + 1) ∧
  tick_roles chrome (2 ^ 53) = tick_roles chrome (2 ^ 53 + 1).
Proof.
  unfold ping_pong_at. rewrite !tick_roles_parity. split.
  - vm_compute. discriminate.
  - reflexivity.
Qed.

(** C1 (amended): for every tick [n] up to [2^53] the compute pass reads
    cell-state buffer [n % 2] and writes buffer [(n + 1) % 2]; the pair is
    (A,B) or (B,A), and it differs from the pair of the tick before. *)
Theorem compute_roles_alternate (env : browser) (n : N) :
  (n ≤ 2 ^ 53)%N →
  ping_pong_at env n ∧
  (tick_roles env n = [([CellStateA], [CellStateB])] ∨
   tick_roles env n = [([CellStateB], [CellStateA])]) ∧
  (n ≠ 0%N → tick_roles env (N.pred n) ≠ tick_roles env n).
Proof.
  intros Hn.
  assert (Hmin : Z.min (Z.of_N n) two53 = Z.of_N n) by (unfold two53; lia).
  assert (Hroles : ping_pong_at env n).
  { unfold ping_pong_at. rewrite tick_roles_parity, Hmin. reflexivity. }
  split; [exact Hroles|]. unfold ping_pong_at in Hroles. split.
  - rewrite Hroles, succ_parity.
    destruct (parity_cases (Z.of_N n)) as [-> | ->]; [left | right]; reflexivity.
  - intros Hpos.
    assert (Hpred : Z.min (Z.of_N (N.pred n)) two53 = Z.of_N n - 1)
      by (unfold two53; lia).
    rewrite !tick_roles_parity, Hmin, Hpred.
    remember (Z.of_N n - 1) as m eqn:Hm.
    replace (Z.of_N n) with (m + 1) by lia.
    rewrite (succ_parity (m + 1)), (succ_parity m).
    destruct (parity_cases m) as [-> | ->]; vm_compute; discriminate.
Qed.

Lemma compute_roles_alternate_witness :
  ping_pong_at chrome 5 ∧ tick_roles chrome 4 ≠ tick_roles chrome 5.
Proof.
  destruct (compute_roles_alternate chrome 5) as (H1 & _ & H3).
  - vm_compute. discriminate.
  - split; [exact H1 | apply H3; lia].
Defined.

(** Every tick encodes a compute pass and a render pass, each with one of
    the two bind groups. *)
Lemma encode_frame s :
  0 ≤ s → ∃ i j, (i = 0 ∨ i = 1) ∧ (j = 0 ∨ j = 1) ∧ (encode s).1 = frame i j.
Proof.
  intros Hs. exists (s mod 2), (js_increment s mod 2).
  split; [apply parity_cases|]. split; [apply parity_cases|].
  assert (Hi : 0 ≤ js_increment s).
  { unfold js_increment. destruct (s <? two53); lia. }
  unfold encode, js_rem. rewrite !Z.rem_mod_nonneg by lia. reflexivity.
Qed.

Lemma tick_frame_cases env n :
  ∃ i j, (i = 0 ∨ i = 1) ∧ (j = 0 ∨ j = 1) ∧ tick_passes env n = frame i j.
Proof.
  rewrite tick_passes_encode. apply encode_frame, min_two53_nonneg.
Qed.

(** C2, as stated, fails at tick [2^53]: the counter no longer changes, the
    render pass keeps bind group A and reads buffer A, while the compute
    pass of that tick wrote buffer B. *)
Lemma render_reads_stale_at_two53 :
  ¬ render_follows_compute chrome (2 ^ 53).
Proof.
  intros (c & r & Hsub & _ & _ & _ & Hr).
  rewrite submission_encode in Hsub.
  vm_compute in Hsub. injection Hsub as <- <-.
  vm_compute in Hr. discriminate.
Qed.

(** C2 (amended): in every tick one command encoder is created, the
    compute pass and then the render pass are encoded into it, and it is
    submitted in a single call; the compute pass writes buffer
    [(step + 1) % 2].  In every tick below [2^53] the render pass reads
    exactly that buffer. *)
Theorem render_reads_fresh_generation (env : browser) (n : N) :
  ∃ c r,
    submission env n = [[c; r]] ∧
    is_compute c = true ∧ is_render r = true ∧
    log (before_tick env (N.succ n)) =
      log (before_tick env n) ++
      [CreateCommandEncoder; GetCurrentTexture; Submit [[c; r]]] ∧
    pass_writes c = cell_buffer ((step (before_tick env n) + 1) mod 2) ∧
    ((n < 2 ^ 53)%N → pass_reads_storage r = pass_writes c).
Proof.
  rewrite submission_encode, before_tick_succ, log_updateGrid,
    step_before_tick.
  pose proof (min_two53_nonneg n) as Hs.
  remember (Z.min (Z.of_N n) two53) as s eqn:Es.
  do 2 eexists. split; [reflexivity|].
  split; [reflexivity|]. split; [reflexivity|]. split; [reflexivity|].
  unfold js_rem. rewrite (Z.rem_mod_nonneg s 2) by lia. split.
  - rewrite succ_parity.
    destruct (parity_cases s) as [-> | ->]; reflexivity.
  - intros Hn.
    assert (Hinc : js_increment s = s + 1).
    { unfold js_increment. destruct (Z.ltb_spec s two53) as [_|Hbig];
        [reflexivity|]. unfold two53 in *. lia. }
    rewrite Hinc, (Z.rem_mod_nonneg (s + 1) 2), succ_parity by lia.
    destruct (parity_cases s) as [-> | ->]; reflexivity.
Qed.

Lemma render_reads_fresh_generation_witness :
  render_follows_compute chrome 7.
Proof.
  destruct (render_reads_fresh_generation chrome 7)
    as (c & r & Hsub & Hc & Hr & _ & Hw & Hfresh).
  exists c, r. repeat split; try assumption. apply Hfresh. reflexivity.
Defined.

(** C9: in every tick the render pass can write no buffer: the only
    writable binding, slot 2, is visible to the compute stage alone.  It
    reads the uniform and the cell-state buffer bound at slot 1, and any
    execution of it leaves every buffer as it was. *)
Theorem render_pass_writes_nothing (env : browser) (n : N) :
  ∃ c r current,
    tick_passes env n = [c; r] ∧ is_render r = true ∧
    pass_writes r = [] ∧
    current_state r = Some current ∧
    pass_reads r = [GridUniforms; current] ∧
    map le_binding (filter (λ e, visible_to CellPipeline e) bindGroupLayout)
      = [0; 1] ∧
    filter (λ e, writable (le_type e)) bindGroupLayout
      = filter (λ e, le_binding e =? 2) bindGroupLayout ∧
    ∀ m m', pass_effect r m m' → ∀ b, m' b = m b.
Proof.
  destruct (tick_frame_cases env n) as (i & j & Hi & Hj & ->).
  eexists _, _, (if j =? 0 then CellStateA else CellStateB).
  split; [reflexivity|].
  assert (Hw : pass_writes
      (RenderPass CellPipeline (js_index bindGroups j) vertexBuffer 6 65536)
      = []) by (destruct Hj as [-> | ->]; reflexivity).
  repeat split.
  - exact Hw.
  - destruct Hj as [-> | ->]; reflexivity.
  - destruct Hj as [-> | ->]; reflexivity.
  - intros m m' He b. apply He. rewrite Hw. apply not_elem_of_nil.
Qed.

(** C10: the draw call of every tick asks for 6 vertices, half the 12
    numbers of [vertices], and [GRID_SIZE * GRID_SIZE] instances, whatever
    the browser, the seed and the tick. *)
Theorem draw_call_is_constant (env : browser) (n : N) :
  draw_calls (tick_passes env n) = [(6, GRID_SIZE * GRID_SIZE)] ∧
  length vertices = 12%nat ∧
  Z.of_nat (length vertices) / 2 = 6 ∧
  GRID_SIZE * GRID_SIZE = 65536.
Proof.
  rewrite tick_passes_encode. repeat split.
Qed.

(** C6: without [navigator.gpu], or without an adapter, the module body
    stops at an uncaught error: the log holds exactly one, as its last
    entry, and no pipeline construction, timer or submission. *)
Theorem capability_error_is_fatal (env : browser) :
  navigator_gpu env = false ∨ adapter_found env = false →
  ∃ t,
    main env [] = (t, None) ∧
    length (uncaught_errors t) = 1%nat ∧
    (∃ t0 message, t = t0 ++ [Uncaught message]) ∧
    Forall (λ e, constructs_pipeline e = false ∧ schedules_tick e = false) t.
Proof.
  assert (Hgpu : ∀ a random,
    ∃ t, main (Build_browser false a random) [] = (t, None) ∧
      length (uncaught_errors t) = 1%nat ∧
      (∃ t0 message, t = t0 ++ [Uncaught message]) ∧
      Forall (λ e, constructs_pipeline e = false ∧ schedules_tick e = false) t).
  { intros a random.
    exists [Uncaught "WebGPU not supported on this browser."].
    split; [reflexivity|]. split; [reflexivity|]. split.
    - exists [], "WebGPU not supported on this browser."%string. reflexivity.
    - repeat constructor. }
  destruct env as [g a random]. unfold navigator_gpu, adapter_found.
  intros H. destruct g; [|apply Hgpu].
  destruct H as [H | ->]; [discriminate H|].
  exists [RequestAdapter; Uncaught "No appropriate GPUAdapter found."].
  split; [reflexivity|]. split; [reflexivity|]. split.
  - exists [RequestAdapter], "No appropriate GPUAdapter found."%string.
    reflexivity.
  - repeat constructor.
Qed.

Lemma capability_error_is_fatal_witness :
  ∃ t, main no_adapter [] = (t, None) ∧ length (uncaught_errors t) = 1%nat.
Proof.
  destruct (capability_error_is_fatal no_adapter) as (t & H1 & H2 & _).
  - right. reflexivity.
  - exists t. split; assumption.
Defined.

(** The seeding loop, run over the first [n] elements. *)
Lemma seed_prefix (random : nat → float) (arr : list Z) (n : nat) :
  (n ≤ length arr)%nat →
  let r := foldl (λ a i, <[i := draw_cell (random i)]> a) arr (seq 0 n) in
  length r = length arr ∧
  ∀ i, ((i < n)%nat → r !! i = Some (draw_cell (random i))) ∧
       ((n ≤ i)%nat → r !! i = arr !! i).
Proof.
  induction n as [|n IH]; intros Hn.
  - split; [reflexivity|]. intros i. split; [lia | reflexivity].
  - cbv zeta. rewrite seq_S, foldl_app. simpl. cbv zeta in IH.
    destruct IH as [Hlen IH]; [lia|].
    split; [rewrite length_insert; exact Hlen|].
    intros i. split; intros Hi.
    + destruct (decide (i = n)) as [-> | Hne].
      * apply list_lookup_insert_eq. lia.
      * rewrite list_lookup_insert_ne by congruence. apply IH. lia.
    + rewrite list_lookup_insert_ne by lia. apply IH. lia.
Qed.

Lemma seed_length random arr : length (seed random arr) = length arr.
Proof. apply (seed_prefix random arr (length arr)). lia. Qed.

Lemma seed_lookup random arr i :
  (i < length arr)%nat → seed random arr !! i = Some (draw_cell (random i)).
Proof.
  intros Hi.
  destruct (seed_prefix random arr (length arr)) as [_ H]; [lia|].
  apply H, Hi.
Qed.

(** The uploads of the module body, when both capability checks pass. *)
Lemma main_buffer_writes env :
  navigator_gpu env = true → adapter_found env = true →
  buffer_writes (main env []).1 =
    [ (Some CellVertices, F32Data vertices);
      (Some GridUniforms, F32Data uniformArray);
      (Some CellStateA,
       U32Data (seed (Math_random env) (Uint32Array (GRID_SIZE * GRID_SIZE)))) ].
Proof.
  destruct env as [g a random]. unfold navigator_gpu, adapter_found.
  intros -> ->. reflexivity.
Qed.

(** Ticks upload nothing. *)
Lemma buffer_writes_before_tick env n :
  buffer_writes (log (before_tick env n)) = buffer_writes (log (start env)).
Proof.
  induction n as [|n IH] using N.peano_ind; [reflexivity|].
  rewrite before_tick_succ, log_updateGrid.
  unfold buffer_writes in *. rewrite omap_app, IH. apply app_nil_r.
Qed.

(** C7: with both capability checks passed, the only cell-state upload
    of the host is the seeded array into buffer A; buffer B is written by
    the host neither during start-up nor by any tick.  The array has one
    word per cell, and word [i] is 1 exactly when the [i]-th draw of
    [Math.random] is greater than the double [0.6], else 0; in doubles,
    [1 - 0.6] is [0.4]. *)
Theorem buffer_A_seeded_by_threshold (env : browser) :
  navigator_gpu env = true → adapter_found env = true →
  ∃ cells,
    (∀ n, buffer_writes (log (before_tick env n)) =
            [ (Some CellVertices, F32Data vertices);
              (Some GridUniforms, F32Data uniformArray);
              (Some CellStateA, U32Data cells) ]) ∧
    (∀ n, Forall (λ w, w.1 ≠ Some CellStateB)
            (buffer_writes (log (before_tick env n)))) ∧
    Z.of_nat (length cells) = GRID_SIZE * GRID_SIZE ∧
    (∀ i, Z.of_nat i < GRID_SIZE * GRID_SIZE →
       cells !! i =
         Some (if PrimFloat.ltb live_threshold (Math_random env i)
               then 1 else 0)) ∧
    PrimFloat.eqb (1 - live_threshold) 0x1.999999999999ap-2 = true.
Proof.
  intros Hg Ha.
  set (blank := Uint32Array (GRID_SIZE * GRID_SIZE)).
  assert (Hblank : Z.of_nat (length blank) = GRID_SIZE * GRID_SIZE).
  { unfold blank, Uint32Array. rewrite length_replicate.
    apply Z2Nat.id. unfold GRID_SIZE. lia. }
  exists (seed (Math_random env) blank).
  assert (Hw : ∀ n, buffer_writes (log (before_tick env n)) =
            [ (Some CellVertices, F32Data vertices);
              (Some GridUniforms, F32Data uniformArray);
              (Some CellStateA, U32Data (seed (Math_random env) blank)) ]).
  { intros n. rewrite buffer_writes_before_tick.
    apply main_buffer_writes; assumption. }
  split; [exact Hw|]. split.
  - intros n. rewrite Hw. repeat constructor; discriminate.
  - split; [rewrite seed_length; exact Hblank|]. split; [|reflexivity].
    intros i Hi. apply seed_lookup. lia.
Qed.

Lemma buffer_A_seeded_by_threshold_witness :
  ∃ cells,
    buffer_writes (log (start chrome)) =
      [ (Some CellVertices, F32Data vertices);
        (Some GridUniforms, F32Data uniformArray);
        (Some CellStateA, U32Data cells) ] ∧
    cells !! 0%nat = Some 1 ∧ cells !! 1%nat = Some 0.
Proof.
  destruct (buffer_A_seeded_by_threshold chrome eq_refl eq_refl)
    as (cells & Hw & _ & _ & Hc & _).
  exists cells. split; [exact (Hw 0%N)|].
  split; [rewrite (Hc 0%nat) | rewrite (Hc 1%nat)]; reflexivity.
Defined.

End HostFacts.

(** ** Facts about [src/shaders/frag.wgsl] *)

Module FragFacts.
Import WebGPU Host Frag.

Example fragment_of_quarter_half (p : vec4f) :
  fragmentMain {| position := p;
                  cell := {| x := f32_quarter; y := f32_half |} |}
  = {| v0 := f32_quarter; v1 := f32_half;
       v2 := f32_three_quarters; v3 := f32_one |}.
Proof. reflexivity. Qed.

End FragFacts.

(** ** Facts about the simulation step *)

Module LifeFacts.
Import WebGPU Life.

Lemma gpu_buffer_eqb_eq a b : gpu_buffer_eqb a b = true ↔ a = b.
Proof. destruct a, b; simpl; split; congruence. Qed.

Lemma gpu_buffer_eqb_refl b : gpu_buffer_eqb b b = true.
Proof. by apply gpu_buffer_eqb_eq. Qed.

Lemma gpu_buffer_eqb_ne a b : a ≠ b → gpu_buffer_eqb a b = false.
Proof.
  intros Hne. destruct (gpu_buffer_eqb a b) eqn:E; [|reflexivity].
  apply gpu_buffer_eqb_eq in E. contradiction.
Qed.

Lemma store_same m b i v : store m b i v b = <[i := v]> (m b).
Proof. unfold store. by rewrite gpu_buffer_eqb_refl. Qed.

Lemma store_other m b i v b' : b' ≠ b → store m b i v b' = m b'.
Proof. intros Hne. unfold store. by rewrite gpu_buffer_eqb_ne. Qed.

Lemma in_grid_spec g x y :
  in_grid g x y = true ↔ 0 ≤ x < width g ∧ 0 ≤ y < height g.
Proof. unfold in_grid. rewrite !andb_true_iff. lia. Qed.

(** The rule, spelled out. *)
Lemma transition_spec alive n :
  (transition alive n = 1 ↔
     (alive = true ∧ (n = 2 ∨ n = 3)) ∨ (alive = false ∧ n = 3)) ∧
  (transition alive n = 1 ∨ transition alive n = 0).
Proof.
  unfold transition.
  destruct alive, (Z.eqb_spec n 2), (Z.eqb_spec n 3); simpl; split; lia.
Qed.


Section Grid.
Variable g : grid.
Hypothesis width_pos : 0 < width g.
Hypothesis height_pos : 0 < height g.

#[local] Abbreviation Wd := (width g).
#[local] Abbreviation Ht := (height g).

Lemma cell_index_lt x y :
  0 ≤ x < Wd → 0 ≤ y < Ht → (cell_index g x y < Z.to_nat (Wd * Ht))%nat.
Proof. unfold cell_index. intros. nia. Qed.

Lemma cell_index_inj x y x' y' :
  0 ≤ x < Wd → 0 ≤ y < Ht → 0 ≤ x' < Wd → 0 ≤ y' < Ht →
  cell_index g x y = cell_index g x' y' → x = x' ∧ y = y'.
Proof.
  unfold cell_index. intros Hx Hy Hx' Hy' E.
  assert (E' : y * Wd + x = y' * Wd + x') by nia.
  assert (y = y') by nia. lia.
Qed.

Lemma cell_of_index i :
  0 ≤ i < Wd * Ht →
  0 ≤ i mod Wd < Wd ∧ 0 ≤ i / Wd < Ht ∧
  cell_index g (i mod Wd) (i / Wd) = Z.to_nat i.
Proof.
  intros Hi. pose proof (Z.mod_pos_bound i Wd width_pos).
  pose proof (Z.div_mod i Wd ltac:(lia)).
  assert (0 ≤ i / Wd) by (apply Z.div_pos; lia).
  assert (i / Wd < Ht) by (apply Z.div_lt_upper_bound; nia).
  unfold cell_index. repeat split; try lia.
Qed.

(** Every cell of the grid has an invocation in the dispatch. *)
Lemma tiles_cover n : n ≤ TILE * tiles n.
Proof.
  unfold tiles, TILE. pose proof (Z.div_mod (- n) 8 ltac:(lia)).
  pose proof (Z.mod_pos_bound (- n) 8 ltac:(lia)). lia.
Qed.

Lemma dispatch_covers x y :
  in_grid g x y = true → (x, y) ∈ dispatch_ids g.
Proof.
  rewrite in_grid_spec. intros [Hx Hy]. unfold dispatch_ids.
  apply list_elem_of_bind. exists y. split.
  - apply list_elem_of_bind. exists x. split; [apply list_elem_of_here|].
    apply elem_of_seqZ. pose proof (tiles_cover Wd). lia.
  - apply elem_of_seqZ. pose proof (tiles_cover Ht). lia.
Qed.

Lemma next_grid_lookup cells x y :
  0 ≤ x < Wd → 0 ≤ y < Ht →
  next_grid g cells !! cell_index g x y = Some (next_state g cells x y).
Proof.
  intros Hx Hy. unfold next_grid.
  pose proof (cell_index_lt x y Hx Hy) as Hlt.
  rewrite list_lookup_fmap, lookup_seqZ_lt by lia. simpl.
  unfold cell_index. rewrite Z2Nat.id by nia. rewrite Z.add_0_l.
  rewrite Z.add_comm, Z.mod_add, Z.div_add, Z.mod_small, Z.div_small
    by lia.
  rewrite Z.add_0_l. reflexivity.
Qed.
Section Step.
Variables src dst : gpu_buffer.
Hypothesis distinct : src ≠ dst.
Variable m : memory.
Hypothesis room : length (m dst) = Z.to_nat (Wd * Ht).

Lemma invocation_invariant done m0 id :
  step_invariant g src dst m done m0 →
  step_invariant g src dst m (id :: done) (invocation g src dst m0 id).
Proof.
  intros (Hother & Hlen & Hdone). destruct id as [ix iy].
  unfold invocation. simpl.
  destruct (in_grid g ix iy) eqn:Hin.
  - rewrite (Hother src distinct). repeat split.
    + intros b Hb. rewrite store_other by exact Hb. by apply Hother.
    + rewrite store_same, length_insert. exact Hlen.
    + intros x y Hxy Hg. rewrite store_same.
      apply in_grid_spec in Hin as [? ?].
      pose proof Hg as Hg'. apply in_grid_spec in Hg' as [? ?].
      destruct (decide (cell_index g x y = cell_index g ix iy)) as [E|Hne].
      * apply cell_index_inj in E as [-> ->]; try assumption.
        apply list_lookup_insert_eq. rewrite Hlen, room.
        by apply cell_index_lt.
      * rewrite list_lookup_insert_ne by congruence.
        apply elem_of_cons in Hxy as [E|Hxy]; [|by apply Hdone].
        injection E as -> ->. contradiction.
  - repeat split; try assumption.
    intros x y Hxy Hg.
    apply elem_of_cons in Hxy as [E|Hxy]; [|by apply Hdone].
    injection E as -> ->. congruence.
Qed.

Lemma step_invariant_foldl order done m0 :
  step_invariant g src dst m done m0 →
  step_invariant g src dst m (rev order ++ done)
    (foldl (invocation g src dst) m0 order).
Proof.
  revert done m0. induction order as [|id order IH]; intros done m0 Hinv.
  - exact Hinv.
  - simpl. rewrite <- app_assoc. simpl.
    apply IH, invocation_invariant, Hinv.
Qed.

(** A step that runs every invocation of the dispatch, in any order,
    leaves the next generation in the destination and touches nothing
    else. *)
Lemma simulation_step_result order :
  order ≡ₚ dispatch_ids g →
  let m' := SimulationStep g src dst order m in
  (∀ b, b ≠ dst → m' b = m b) ∧ m' dst = next_grid g (m src).
Proof.
  intros Hperm m'.
  assert (Hinv : step_invariant g src dst m (rev order ++ []) m').
  { apply step_invariant_foldl. repeat split. intros x y Hxy.
    by apply not_elem_of_nil in Hxy. }
  destruct Hinv as (Hother & Hlen & Hdone).
  split; [exact Hother|].
  apply list_eq. intros i. unfold next_grid.
  rewrite list_lookup_fmap.
  destruct (decide (Z.of_nat i < Wd * Ht)) as [Hi|Hi].
  - rewrite lookup_seqZ_lt by lia. simpl.
    destruct (cell_of_index (Z.of_nat i)) as (Hx & Hy & Hidx); [lia|].
    rewrite Z.add_0_l. rewrite Nat2Z.id in Hidx. rewrite <- Hidx at 1.
    apply Hdone; [|by apply in_grid_spec].
    rewrite app_nil_r. apply list_elem_of_In. apply -> in_rev.
    apply list_elem_of_In. rewrite Hperm.
    apply dispatch_covers. by apply in_grid_spec.
  - rewrite (lookup_ge_None_2 (m' dst)) by (rewrite Hlen, room; lia).
    rewrite (lookup_ge_None_2 (seqZ _ _))
      by (rewrite length_seqZ; lia).
    reflexivity.
Qed.

End Step.
End Grid.

(** The neighbour count is the number of the eight wrapped positions whose
    word is not zero. *)
Lemma sumZ_count {A : Type} (f : A → Z) (l : list A) :
  sumZ (map (λ a, b2z (live (f a))) l) =
    Z.of_nat (length (filter (λ a, f a ≠ 0) l)).
Proof.
  induction l as [|a l IH]; [reflexivity|].
  rewrite filter_cons. cbn [map sumZ foldr]. fold (sumZ (map (λ a, b2z (live (f a))) l)).
  rewrite IH. unfold live.
  destruct (decide (f a ≠ 0)) as [Hne|He], (Z.eqb_spec (f a) 0);
    simpl; lia.
Qed.


Lemma live_neighbours_explicit g cells x y :
  live_neighbours g cells x y =
    Z.of_nat (length (filter
      (λ d : Z * Z,
         default 0 (cells !! Z.to_nat ((y + d.2) mod height g * width g
                                       + (x + d.1) mod width g)) ≠ 0)
      [ (-1, -1); (0, -1); (1, -1); (-1, 0); (1, 0);
        (-1, 1); (0, 1); (1, 1) ])).
Proof.
  unfold live_neighbours, neighbours. rewrite map_map.
  exact (sumZ_count
    (λ d : Z * Z,
       default 0 (cells !! Z.to_nat ((y + d.2) mod height g * width g
                                     + (x + d.1) mod width g))) offsets).
Qed.

(** A step whose source and destination are the same buffer reads words it
    has written: the blinker is not turned. *)
Example aliased_step_differs :
  SimulationStep grid5 CellStateA CellStateA (dispatch_ids grid5)
    blinker_memory CellStateA
  ≠ next_grid grid5 (blinker_memory CellStateA).
Proof. vm_compute. discriminate. Qed.

(** C3: one simulation step, whatever the order of its invocations,
    leaves the source as it was and puts into every cell [(x, y)] of the
    destination the Life transition of that cell computed from the source
    alone.  With [n] the number of the eight positions around [(x, y)],
    wrapped, whose source word is not zero, the new word is 1 exactly
    when the cell is live with [n] 2 or 3, or dead with [n] 3, and 0
    otherwise. *)
Theorem simulation_step_life_rule (g : grid) (src dst : gpu_buffer)
    (m : memory) (order : list (Z * Z)) :
  0 < width g → 0 < height g → src ≠ dst →
  length (m src) = Z.to_nat (width g * height g) →
  length (m dst) = Z.to_nat (width g * height g) →
  order ≡ₚ dispatch_ids g →
  let m' := SimulationStep g src dst order m in
  let word (a b : Z) := default 0 (m src !! Z.to_nat (b * width g + a)) in
  m' src = m src ∧
  length (m' dst) = Z.to_nat (width g * height g) ∧
  ∀ x y, 0 ≤ x < width g → 0 ≤ y < height g →
    let n := Z.of_nat (length (filter
               (λ d : Z * Z,
                  word ((x + d.1) mod width g) ((y + d.2) mod height g) ≠ 0)
               [ (-1, -1); (0, -1); (1, -1); (-1, 0); (1, 0);
                 (-1, 1); (0, 1); (1, 1) ])) in
    ∃ v, m' dst !! Z.to_nat (y * width g + x) = Some v ∧
      (v = 1 ↔ (word x y ≠ 0 ∧ (n = 2 ∨ n = 3)) ∨ (word x y = 0 ∧ n = 3)) ∧
      (v = 1 ∨ v = 0).
Proof.
  intros HW HH Hne _ Hroom Hperm m' word.
  destruct (simulation_step_result g HW HH src dst Hne m Hroom order Hperm)
    as [Hother Hdst].
  fold m' in Hother, Hdst.
  split; [by apply Hother|]. split.
  { rewrite Hdst. unfold next_grid. by rewrite length_fmap, length_seqZ. }
  intros x y Hx Hy n.
  exists (next_state g (m src) x y). split.
  - rewrite Hdst. by apply next_grid_lookup.
  - unfold next_state.
    pose proof (transition_spec (live (read g (m src) (x, y)))
                  (live_neighbours g (m src) x y)) as [Hrule Hbin].
    rewrite live_neighbours_explicit in Hrule, Hbin. fold n in Hrule, Hbin.
    rewrite live_neighbours_explicit. fold n.
    split; [|exact Hbin]. rewrite Hrule.
    change (read g (m src) (x, y)) with (word x y).
    unfold live. destruct (Z.eqb_spec (word x y) 0); simpl; intuition congruence.
Qed.

Lemma simulation_step_life_rule_witness :
  let m' := SimulationStep grid5 CellStateA CellStateB
              (dispatch_ids grid5) blinker_memory in
  m' CellStateA =
    [ 0; 0; 0; 0; 0;
      0; 0; 0; 0; 0;
      0; 1; 1; 1; 0;
      0; 0; 0; 0; 0;
      0; 0; 0; 0; 0 ] ∧
  m' CellStateB =
    [ 0; 0; 0; 0; 0;
      0; 0; 1; 0; 0;
      0; 0; 1; 0; 0;
      0; 0; 1; 0; 0;
      0; 0; 0; 0; 0 ].
Proof.
  destruct (simulation_step_life_rule grid5 CellStateA CellStateB
              blinker_memory (dispatch_ids grid5)) as (H1 & _ & _);
    [reflexivity | reflexivity | discriminate | reflexivity | reflexivity
    | reflexivity |].
  split; [rewrite H1|]; vm_compute; reflexivity.
Defined.


Lemma b2z_bounds b : 0 ≤ b2z b ≤ 1.
Proof. destruct b; simpl; lia. Qed.





Section Patterns.
Variable g : grid.
Hypothesis width_pos : 0 < width g.
Hypothesis height_pos : 0 < height g.







End Patterns.

(** Decide every comparison of the goal by linear arithmetic. *)
Ltac decide_comparisons :=
  repeat match goal with
  | |- context [?a =? ?b] =>
      first [ rewrite (proj2 (Z.eqb_eq a b)) by lia
            | rewrite (proj2 (Z.eqb_neq a b)) by lia ]
  | |- context [?a <=? ?b] =>
      first [ rewrite (proj2 (Z.leb_le a b)) by lia
            | rewrite (proj2 (Z.leb_gt a b)) by lia ]
  end.

(** Where a coordinate lies relative to a pattern's centre. *)
Lemma around c v :
  v ≤ c - 3 ∨ v = c - 2 ∨ v = c - 1 ∨ v = c ∨ v = c + 1 ∨ v = c + 2 ∨ c + 3 ≤ v.
Proof. lia. Qed.

Ltac by_position cx cy x y :=
  destruct (around cx x) as [?|[?|[?|[?|[?|[?|?]]]]]];
  destruct (around cy y) as [?|[?|[?|[?|[?|[?|?]]]]]];
  decide_comparisons; reflexivity.



Lemma block_next cx cy x y :
  plane_next (block cx cy) x y = b2z (block cx cy x y).
Proof.
  unfold plane_next, plane_count, offsets, block, sumZ.
  cbn [map foldr fst snd]. by_position cx cy x y.
Qed.








Lemma block_confined g cx cy :
  1 ≤ cx ≤ width g - 3 → 1 ≤ cy ≤ height g - 3 →
  confined g (block cx cy).
Proof.
  intros Hx Hy x y. unfold block. rewrite !andb_true_iff. lia.
Qed.




End LifeFacts.

(** ** More facts about [src/index.js] *)

Module SetupFacts.
Import JS WebGPU Host Run Setup.

Lemma main_success env :
  navigator_gpu env = true → adapter_found env = true →
  main env [] = (startup_log (Math_random env), Some tt).
Proof.
  destruct env as [g a random]. unfold navigator_gpu, adapter_found.
  intros -> ->. reflexivity.
Qed.

Lemma byteLength_Uint32Array n : 0 ≤ n → byteLength (Uint32Array n) = 4 * n.
Proof.
  intros Hn. unfold byteLength, Uint32Array.
  rewrite length_replicate, Z2Nat.id by exact Hn. reflexivity.
Qed.

Lemma byteLength_seed random arr : byteLength (seed random arr) = byteLength arr.
Proof. unfold byteLength. by rewrite HostFacts.seed_length. Qed.

(** Name the seeded array and the size of a cell-state buffer, so that a
    log can be computed with. *)
Ltac name_cells cells Hcells :=
  unfold startup_log;
  match goal with
  | |- context [seed ?r ?a] =>
      assert (Hcells : byteLength (seed r a) = 4 * (GRID_SIZE * GRID_SIZE))
        by (rewrite byteLength_seed; apply byteLength_Uint32Array;
            unfold GRID_SIZE; lia);
      generalize dependent (seed r a); intros cells Hcells
  end;
  rewrite (byteLength_Uint32Array (GRID_SIZE * GRID_SIZE))
    by (unfold GRID_SIZE; lia).

(** X2: every upload of the module body goes, at offset 0, to a buffer
    that an earlier event created with [COPY_DST] usage and with exactly
    the byte size of the uploaded array. *)
Theorem uploads_fill_created_buffers (env : browser) :
  navigator_gpu env = true → adapter_found env = true →
  let t := (main env []).1 in
  ∀ i b off data,
    t !! i = Some (WriteBuffer b off data) →
    ∃ j buf size usage,
      (j < i)%nat ∧ b = Some buf ∧ creates_at t j buf size usage ∧
      has_flag usage GPUBufferUsage_COPY_DST = true ∧
      off = 0 ∧ data_bytes data = size.
Proof.
  intros Hg Ha t. subst t. rewrite main_success by assumption.
  unfold creates_at. cbn [fst]. name_cells cells Hcells.
  intros i b off data Hi.
  do 20 (try (destruct i as [|i]; [simpl in Hi; try discriminate Hi|]));
    [ exists 3%nat | exists 12%nat | exists 14%nat | discriminate Hi ];
    injection Hi as <- <- <-;
    eexists _, _, _; (split; [lia|]); repeat split; assumption || reflexivity.
Qed.

Lemma uploads_fill_created_buffers_witness :
  ∃ j size usage,
    creates_at (main chrome []).1 j CellStateA size usage ∧
    size = 262144 ∧ has_flag usage GPUBufferUsage_COPY_DST = true.
Proof.
  destruct (uploads_fill_created_buffers chrome eq_refl eq_refl 16%nat
              (Some CellStateA) 0
              (U32Data (seed (Math_random chrome)
                          (Uint32Array (GRID_SIZE * GRID_SIZE)))))
    as (j & buf & size & usage & _ & Hb & Hc & Hu & _ & Hs).
  - rewrite main_success by reflexivity. reflexivity.
  - injection Hb as <-. exists j, size, usage.
    split; [exact Hc|]. split; [|exact Hu].
    rewrite <- Hs. simpl. rewrite byteLength_seed.
    apply byteLength_Uint32Array. discriminate.
Defined.

(** X3: each of the two bind groups binds exactly the slots of the layout,
    every slot to a buffer that an earlier event created with the usage
    the slot's type requires ([UNIFORM] for the uniform, [STORAGE] for the
    two cell-state slots); the two cell-state buffers have the same size,
    one 4-byte word per cell. *)
Theorem bind_groups_are_valid (env : browser) :
  navigator_gpu env = true → adapter_found env = true →
  let t := (main env []).1 in
  (∀ i g,
     t !! i = Some (CreateBindGroup g) →
     g ∈ bindGroups ∧
     map be_binding (bg_entries g) = map le_binding (bg_layout g) ∧
     Forall (λ e, ∃ j buf size usage,
               (j < i)%nat ∧ bound_at g (le_binding e) = Some buf ∧
               creates_at t j buf size usage ∧
               has_flag usage (required_usage (le_type e)) = true)
            (bg_layout g)) ∧
  (∃ jA jB usageA usageB,
     creates_at t jA CellStateA (4 * (GRID_SIZE * GRID_SIZE)) usageA ∧
     creates_at t jB CellStateB (4 * (GRID_SIZE * GRID_SIZE)) usageB) ∧
  omap (λ e, match e with CreateBindGroup g => Some g | _ => None end) t
    = bindGroups.
Proof.
  intros Hg Ha t. subst t. rewrite main_success by assumption.
  unfold creates_at. cbn [fst]. name_cells cells Hcells. split; [|split].
  - intros i g Hi.
    do 20 (try (destruct i as [|i]; [simpl in Hi; try discriminate Hi|]));
      [ | | discriminate Hi ]; injection Hi as <-.
    + split; [apply list_elem_of_here|]. split; [reflexivity|].
      repeat constructor.
      * exists 12%nat. eexists _, _, _. split; [lia|]. repeat split.
      * exists 14%nat. eexists _, _, _. split; [lia|]. repeat split.
      * exists 15%nat. eexists _, _, _. split; [lia|]. repeat split.
    + split; [apply list_elem_of_further, list_elem_of_here|].
      split; [reflexivity|].
      repeat constructor.
      * exists 12%nat. eexists _, _, _. split; [lia|]. repeat split.
      * exists 15%nat. eexists _, _, _. split; [lia|]. repeat split.
      * exists 14%nat. eexists _, _, _. split; [lia|]. repeat split.
  - exists 14%nat, 15%nat. eexists _, _. split; reflexivity.
  - reflexivity.
Qed.

Lemma bind_groups_are_valid_witness :
  omap (λ e, match e with CreateBindGroup g => Some g | _ => None end)
       (main chrome []).1 = bindGroups.
Proof.
  exact (proj2 (proj2 (bind_groups_are_valid chrome eq_refl eq_refl))).
Defined.

(** X4: in every tick, however late, both [setBindGroup] calls get a
    defined bind group, and the compute pass reads one cell-state buffer
    and writes the other: source and destination are never the same
    buffer. *)
Theorem passes_never_alias (env : browser) (n : N) :
  Forall (λ c, is_Some (pass_group c)) (tick_passes env n) ∧
  (tick_roles env n = [([CellStateA], [CellStateB])] ∨
   tick_roles env n = [([CellStateB], [CellStateA])]).
Proof.
  unfold tick_roles.
  destruct (HostFacts.tick_frame_cases env n) as (i & j & Hi & Hj & ->).
  split.
  - destruct Hi as [-> | ->], Hj as [-> | ->];
      repeat constructor; eexists; reflexivity.
  - destruct Hi as [-> | ->]; [left | right]; reflexivity.
Qed.

(** X5: before tick [n] the counter [step] is [n] while [n] is at most
    [2^53] and [2^53] afterwards; it never decreases.  From tick [2^53]
    on, every tick encodes the same two passes, both with bind group A. *)
Theorem counter_saturates (env : browser) (n : N) :
  step (before_tick env n) = Z.min (Z.of_N n) (2 ^ 53) ∧
  step (before_tick env n) ≤ step (before_tick env (N.succ n)) ∧
  tick_passes env (2 ^ 53 + n) = frame 0 0.
Proof.
  rewrite !HostFacts.step_before_tick. unfold two53.
  split; [reflexivity|]. split; [lia|].
  rewrite HostFacts.tick_passes_encode.
  replace (Z.min (Z.of_N (2 ^ 53 + n)) two53) with two53
    by (unfold two53; lia).
  reflexivity.
Qed.

(** X6: after [n] ticks the log is the log of the module body followed,
    tick by tick, by one [createCommandEncoder], one [getCurrentTexture]
    and one [submit] of a single command buffer; a tick logs nothing else.
    Every tick's command buffer is a compute pass with the simulation
    pipeline and then a render pass with the cell pipeline. *)
Theorem log_grows_by_submissions (env : browser) (n : N) :
  log (before_tick env n) =
    log (start env) ++
    (seq 0 (N.to_nat n) ≫= λ k,
       [ CreateCommandEncoder; GetCurrentTexture;
         Submit [tick_passes env (N.of_nat k)] ]) ∧
  ∃ c r,
    tick_passes env n = [c; r] ∧
    is_compute c = true ∧ pass_pipeline c = SimulationPipeline ∧
    is_render r = true ∧ pass_pipeline r = CellPipeline.
Proof.
  split.
  - induction n as [|n IH] using N.peano_ind.
    + simpl. by rewrite app_nil_r.
    + rewrite HostFacts.before_tick_succ, HostFacts.log_updateGrid, IH.
      rewrite N2Nat.inj_succ, seq_S, bind_app, app_assoc. simpl.
      rewrite N2Nat.id, HostFacts.tick_passes_encode,
        HostFacts.step_before_tick.
      reflexivity.
  - destruct (HostFacts.tick_frame_cases env n) as (i & j & _ & _ & ->).
    do 2 eexists. repeat split.
Qed.


(** X8: the draw call of every tick reads the vertex buffer, and its
    vertex count times the array stride is the byte size of [vertices]:
    the draw uses every uploaded vertex and none past the end.  The one
    attribute lies within the stride, and the vertex buffer was created
    with [VERTEX] usage and that size. *)
Theorem draw_stays_within_vertex_buffer (env : browser) (n : N) :
  navigator_gpu env = true → adapter_found env = true →
  Forall (λ c, match c with
               | RenderPass _ _ vb count _ =>
                   vb = vertexBuffer ∧
                   count * arrayStride vertexBufferLayout = byteLength vertices
               | _ => True
               end) (tick_passes env n) ∧
  Forall (λ a, 0 ≤ offset a ∧
               offset a + format_bytes (format a)
                 ≤ arrayStride vertexBufferLayout)
         (attributes vertexBufferLayout) ∧
  ∃ j usage,
    creates_at (log (start env)) j vertexBuffer (byteLength vertices) usage ∧
    has_flag usage GPUBufferUsage_VERTEX = true.
Proof.
  intros Hg Ha. rewrite HostFacts.tick_passes_encode. split; [|split].
  - repeat constructor.
  - repeat constructor; simpl; lia.
  - unfold start, creates_at. cbn [log]. rewrite main_success by assumption.
    exists 3%nat. eexists. split; reflexivity.
Qed.

Lemma draw_stays_within_vertex_buffer_witness :
  ∃ j usage,
    creates_at (log (start chrome)) j vertexBuffer 48 usage ∧
    has_flag usage GPUBufferUsage_VERTEX = true.
Proof.
  exact (proj2 (proj2
           (draw_stays_within_vertex_buffer chrome 0 eq_refl eq_refl))).
Defined.

(** X9: the seeding loop overwrites every element: the seeded array is
    the list of the cells drawn from the first draws, one per element,
    whatever the array held, and every word of it is 0 or 1. *)
Theorem seed_overwrites_every_element (random : nat → float) (arr : list Z) :
  seed random arr = (λ i, draw_cell (random i)) <$> seq 0 (length arr) ∧
  Forall (λ v, v = 0 ∨ v = 1) (seed random arr).
Proof.
  assert (Hseed : seed random arr =
            (λ i, draw_cell (random i)) <$> seq 0 (length arr)).
  { apply list_eq. intros i. rewrite list_lookup_fmap.
    destruct (decide (i < length arr)%nat) as [Hi|Hi].
    - rewrite HostFacts.seed_lookup by exact Hi.
      rewrite lookup_seq_lt by exact Hi. reflexivity.
    - rewrite lookup_ge_None_2 by (rewrite HostFacts.seed_length; lia).
      rewrite lookup_seq_ge by lia. reflexivity. }
  split; [exact Hseed|]. rewrite Hseed.
  apply Forall_fmap, Forall_forall. intros i _. simpl.
  unfold draw_cell. destruct (PrimFloat.ltb _ _); auto.
Qed.

(** X10: no pass of any tick can write the grid uniform or the vertex
    buffer, every pass can read the uniform, and ticks upload nothing: the
    host's uploads after any number of ticks are those of the module
    body. *)
Theorem uniform_and_vertices_are_constant (env : browser) (n : N) :
  Forall (λ c, (GridUniforms ∉ pass_writes c) ∧
               (CellVertices ∉ pass_writes c) ∧
               (GridUniforms ∈ pass_reads c)) (tick_passes env n) ∧
  buffer_writes (log (before_tick env n)) = buffer_writes (log (start env)).
Proof.
  split; [|apply HostFacts.buffer_writes_before_tick].
  destruct (HostFacts.tick_frame_cases env n) as (i & j & Hi & Hj & ->).
  assert (Hne : ∀ (a b : gpu_buffer) l, a ≠ b → a ∉ l → a ∉ b :: l).
  { intros a b l Hab Hl Hin. apply elem_of_cons in Hin as [?|?]; tauto. }
  destruct Hi as [-> | ->], Hj as [-> | ->];
    repeat constructor;
    try (apply list_elem_of_here);
    repeat (apply Hne; [discriminate|]); apply not_elem_of_nil.
Qed.

(** The coordinates [k / GRID_SIZE] are binary32 numbers, and the last
    one is 1. *)
Example cell_fraction_values :
  cell_fraction 64 = Frag.f32_quarter ∧ cell_fraction 128 = Frag.f32_half ∧
  cell_fraction GRID_SIZE = Frag.f32_one.
Proof. repeat split. Qed.

Lemma same_f32_eq a b : same_f32 a b = true → a = b.
Proof.
  destruct a as [sa|sa| |sa ma ea], b as [sb|sb| |sb mb eb]; simpl;
    try discriminate; try reflexivity.
  - destruct sa, sb; simpl; congruence.
  - destruct sa, sb; simpl; congruence.
  - rewrite !andb_true_iff. intros [[Hs Hm] He].
    apply Pos.eqb_eq in Hm. apply Z.eqb_eq in He.
    destruct sa, sb; simpl in Hs; congruence.
Qed.

(** The subtraction [1 - k / GRID_SIZE] is exact. *)
Lemma sub_exact_on_grid k :
  0 ≤ k ≤ GRID_SIZE →
  Frag.f32_sub Frag.f32_one (cell_fraction k) = cell_fraction (GRID_SIZE - k).
Proof.
  intros Hk.
  assert (Hall : forallb (λ k, same_f32
                    (Frag.f32_sub Frag.f32_one (cell_fraction k))
                    (cell_fraction (GRID_SIZE - k)))
                  (seqZ 0 (GRID_SIZE + 1)) = true)
    by (vm_compute; reflexivity).
  rewrite forallb_forall in Hall. apply same_f32_eq, Hall.
  apply list_elem_of_In, elem_of_seqZ. lia.
Qed.

(** X11: for a cell coordinate [k / GRID_SIZE] with [0 <= k <= GRID_SIZE]
    the subtraction in [fragmentMain] is exact: the blue channel is
    [(GRID_SIZE - k) / GRID_SIZE], so red and blue add up to 1 without
    rounding; green is the [y] coordinate and alpha is 1. *)
Theorem gradient_is_exact_on_grid (k : Z) (p : Frag.vec4f) (cy : Frag.f32) :
  0 ≤ k ≤ GRID_SIZE →
  Frag.fragmentMain
    {| Frag.position := p;
       Frag.cell := {| Frag.x := cell_fraction k; Frag.y := cy |} |}
  = {| Frag.v0 := cell_fraction k; Frag.v1 := cy;
       Frag.v2 := cell_fraction (GRID_SIZE - k); Frag.v3 := Frag.f32_one |}.
Proof.
  intros Hk. unfold Frag.fragmentMain, Frag.vec4f_of. simpl. f_equal.
  by apply sub_exact_on_grid.
Qed.

Lemma gradient_is_exact_on_grid_witness :
  Frag.v2 (Frag.fragmentMain
    {| Frag.position :=
         {| Frag.v0 := Frag.f32_half; Frag.v1 := Frag.f32_half;
            Frag.v2 := Frag.f32_one; Frag.v3 := Frag.f32_one |};
       Frag.cell := {| Frag.x := cell_fraction 64; Frag.y := Frag.f32_half |} |})
  = Frag.f32_three_quarters.
Proof.
  rewrite (gradient_is_exact_on_grid 64); [reflexivity|].
  unfold GRID_SIZE. lia.
Defined.

End SetupFacts.

(** ** Facts about the vertex and fragment stages together *)

Module VertFacts.
Import WebGPU Host Frag Setup Vert.

(** The division [k / GRID_SIZE] of the vertex stage is exact. *)
Lemma div_exact_on_grid k :
  0 ≤ k < GRID_SIZE →
  f32_div (f32_of_Z k) (f32_of_Z GRID_SIZE) = cell_fraction k.
Proof.
  intros Hk.
  assert (Hall : forallb (λ k, same_f32
                    (f32_div (f32_of_Z k) (f32_of_Z GRID_SIZE))
                    (cell_fraction k))
                  (seqZ 0 GRID_SIZE) = true)
    by (vm_compute; reflexivity).
  rewrite forallb_forall in Hall. apply SetupFacts.same_f32_eq, Hall.
  apply list_elem_of_In, elem_of_seqZ. lia.
Qed.

(** C8: for every placement of the instances and every rasteriser that
    gives a fragment the cell coordinate its triangle's vertices share,
    the colour of a fragment of instance [y * GRID_SIZE + x] is
    [(x / GRID_SIZE, y / GRID_SIZE, 1 - x / GRID_SIZE, 1)], computed in
    binary32 without rounding.  It is the same for every state word of
    the cell: the state reaches the placement only, and no binding of the
    layout is visible to the fragment stage. *)
Theorem colour_of_instance_ignores_liveness
    (place : vec2f → Z → Z → Z → vec4f) (weights : Type)
    (interpolate :
       weights → VertexOutput → VertexOutput → VertexOutput → VertexOutput) :
  (∀ w a b c, cell a = cell b → cell b = cell c →
     cell (interpolate w a b c) = cell a) →
  ∀ (at_ : weights) (p1 p2 p3 : vec2f) (instance state : Z),
    0 ≤ instance < GRID_SIZE * GRID_SIZE →
    let cx := instance mod GRID_SIZE in
    let cy := instance / GRID_SIZE in
    instance_colour place weights interpolate GRID_SIZE GRID_SIZE
      at_ p1 p2 p3 instance state
    = {| v0 := cell_fraction cx; v1 := cell_fraction cy;
         v2 := cell_fraction (GRID_SIZE - cx); v3 := f32_one |} ∧
    (∀ state',
       instance_colour place weights interpolate GRID_SIZE GRID_SIZE
         at_ p1 p2 p3 instance state'
       = instance_colour place weights interpolate GRID_SIZE GRID_SIZE
           at_ p1 p2 p3 instance state) ∧
    Forall (λ e, Z.land (le_visibility e) GPUShaderStage_FRAGMENT = 0)
           bindGroupLayout.
Proof.
  intros Hint at_ p1 p2 p3 instance state Hi cx cy.
  assert (Hcx : 0 ≤ cx < GRID_SIZE)
    by (apply Z.mod_pos_bound; reflexivity).
  assert (Hcy : 0 ≤ cy < GRID_SIZE).
  { unfold cy. split; [apply Z.div_pos; [lia | reflexivity]|].
    apply Z.div_lt_upper_bound; [reflexivity | lia]. }
  assert (Hcol : ∀ s,
    instance_colour place weights interpolate GRID_SIZE GRID_SIZE
      at_ p1 p2 p3 instance s
    = {| v0 := cell_fraction cx; v1 := cell_fraction cy;
         v2 := cell_fraction (GRID_SIZE - cx); v3 := f32_one |}).
  { intros s. unfold instance_colour.
    match goal with |- fragmentMain ?f = _ =>
      assert (Hcell : cell f =
                {| x := cell_fraction cx; y := cell_fraction cy |});
      [|destruct f as [pos c]]
    end.
    - rewrite Hint by reflexivity. unfold vertexMain. cbn [cell].
      fold cx cy. by rewrite !div_exact_on_grid.
    - cbn [cell] in Hcell. subst c. unfold fragmentMain, vec4f_of.
      cbn [cell x y]. rewrite SetupFacts.sub_exact_on_grid by lia.
      reflexivity. }
  split; [apply Hcol|]. split.
  - intros state'. by rewrite !Hcol.
  - repeat constructor.
Qed.

Lemma colour_of_instance_ignores_liveness_witness :
  instance_colour collapse_dead unit first_vertex GRID_SIZE GRID_SIZE tt
    {| x := f32_half; y := f32_half |} {| x := f32_one; y := f32_half |}
    {| x := f32_one; y := f32_one |} (128 * 256 + 64) 0
  = {| v0 := f32_quarter; v1 := f32_half;
       v2 := f32_three_quarters; v3 := f32_one |}.
Proof.
  refine (proj1 (colour_of_instance_ignores_liveness collapse_dead unit
                   first_vertex _ tt _ _ _ (128 * 256 + 64) 0 _)).
  - intros w a b c _ _. reflexivity.
  - unfold GRID_SIZE. lia.
Defined.

End VertFacts.
